(** * chat-window.js: the chat window component

    A shallow embedding of [src/components/chat-window.js] of the
    llm-assistant-frontend: the content formatter ([md], [formatContent]),
    the composer handlers ([handleKeyPress], [handleInput]), the scroll
    controller ([scrollToBottom], [updated], [firstUpdated]) and the
    template produced by [render].

    The component is written against three collaborators that are not part
    of it: highlight.js, markdown-it and the browser (DOM event delivery,
    the animation-frame queue, element scrolling).  Each of them appears
    here as an explicit interface or as a small, separately named model, so
    that every statement about the component says which behaviour of the
    collaborator it relies on. *)

From Stdlib Require Import String Ascii List Bool Arith ZArith Lia.
Import ListNotations.

Local Open Scope string_scope.
Local Open Scope bool_scope.

(** ** JavaScript values and completions *)

Module Js.

(** A JavaScript call either returns a value or throws. *)
Inductive completion (A : Type) : Type :=
| Normal (v : A)
| Throw (error : string).
Arguments Normal {A} v.
Arguments Throw {A} error.

Definition bind {A B} (c : completion A) (k : A -> completion B) : completion B :=
  match c with
  | Normal v => k v
  | Throw e => Throw e
  end.

(** [try { body } catch (__) { }] followed by [rest]: when the body
    returns, its value is the result; when it throws, the exception is
    swallowed and control falls through to [rest]. *)
Definition try_return {A} (body : completion A) (rest : completion A) : completion A :=
  match body with
  | Normal v => Normal v
  | Throw _ => rest
  end.

(** Truthiness of a string: every string but the empty one. *)
Definition truthy (s : string) : bool :=
  match s with
  | EmptyString => false
  | String _ _ => true
  end.

(** Truthiness of an object-or-undefined. *)
Definition defined {A} (o : option A) : bool :=
  match o with
  | Some _ => true
  | None => false
  end.

(** [a || b] on strings. *)
Definition or_else (a b : string) : string :=
  if truthy a then a else b.

Definition newline : string := String "010"%char EmptyString.
Definition dquote : string := String "034"%char EmptyString.

(** [hay.indexOf(needle) === 0] *)
Definition starts_with (needle hay : string) : bool := String.prefix needle hay.

(** [hay.includes(needle)] *)
Fixpoint includes (needle hay : string) : bool :=
  String.prefix needle hay ||
  match hay with
  | EmptyString => false
  | String _ rest => includes needle rest
  end.

(** The string [v] with [s] spliced in at offset [at_]. *)
Definition splice (at_ : nat) (s v : string) : string :=
  substring 0 at_ v ++ s ++ substring at_ (String.length v - at_) v.

End Js.

Notation "x <- c ;; k" := (Js.bind c (fun x => k))
  (at level 61, c at next level, right associativity).

(** ** highlight.js and markdown-it, as the component sees them *)

Module Deps.

Import Js.

(** The result object of [hljs.highlight]; the component reads [.value]. *)
Record HighlightResult := { value : string }.

(** highlight.js: [getLanguage] answers with a language definition or
    [undefined]; [highlight code {language}] returns a result or throws. *)
Class HighlightJs := {
  Language : Type;
  getLanguage : string -> option Language;
  hljs_highlight : string -> string -> completion HighlightResult
}.

(** The options object handed to [new MarkdownIt(...)]. *)
Record Options := {
  html : bool;
  linkify : bool;
  typographer : bool;
  breaks : bool;
  highlight : string -> string -> completion string
}.

(** The block tokens of markdown-it that matter to the component: a
    fenced code block (with the language name taken from its info
    string), a raw HTML block, and everything else, which reaches the
    output through renderer rules that do not involve the component. *)
Inductive Token :=
| fence (langName content : string)
| html_block (content : string)
| other (rendered : string).

(** markdown-it's parser. *)
Class Parser := { parse : Options -> string -> list Token }.

(** markdown-it's [escapeHtml]. *)
Definition replaceUnsafeChar (c : ascii) : string :=
  if Ascii.eqb c "&" then "&amp;"
  else if Ascii.eqb c "<" then "&lt;"
  else if Ascii.eqb c ">" then "&gt;"
  else if Ascii.eqb c "034" then "&quot;"
  else String c EmptyString.

Fixpoint escapeHtml (s : string) : string :=
  match s with
  | EmptyString => EmptyString
  | String c rest => replaceUnsafeChar c ++ escapeHtml rest
  end.

(** How an HTML parser reads escaped text back: each of the four
    entities [escapeHtml] writes stands for its character.  [skip] counts
    the characters of an entity that remain to be passed over. *)
Fixpoint decodeEntities (skip : nat) (s : string) : string :=
  match s with
  | EmptyString => EmptyString
  | String c rest =>
      match skip with
      | S k => decodeEntities k rest
      | O =>
          if String.prefix "&amp;" s then String "&" (decodeEntities 4 rest)
          else if String.prefix "&lt;" s then String "<" (decodeEntities 3 rest)
          else if String.prefix "&gt;" s then String ">" (decodeEntities 3 rest)
          else if String.prefix "&quot;" s then String "034" (decodeEntities 5 rest)
          else String c (decodeEntities 0 rest)
      end
  end.

(** markdown-it's renderer rule for [fence]: the highlighter's answer is
    the body of the block, and an empty answer selects [escapeHtml] of
    the block's text. *)
Definition fence_body (o : Options) (langName content : string) : completion string :=
  h <- highlight o content langName ;;
  Normal (or_else h (escapeHtml content)).

Definition fence_rule (o : Options) (langName content : string) : completion string :=
  highlighted <- fence_body o langName content ;;
  if starts_with "<pre" highlighted then Normal (highlighted ++ newline)
  else if truthy langName then
    Normal ("<pre><code class=" ++ dquote ++ "language-" ++ escapeHtml langName ++ dquote ++ ">"
              ++ highlighted ++ "</code></pre>" ++ newline)
  else Normal ("<pre><code>" ++ highlighted ++ "</code></pre>" ++ newline).

Definition render_token (o : Options) (t : Token) : completion string :=
  match t with
  | fence langName content => fence_rule o langName content
  | html_block content => Normal content
  | other rendered => Normal rendered
  end.

(** The renderer's loop: the output is the concatenation, in order, of
    what each token's rule returns. *)
Fixpoint render_tokens (o : Options) (ts : list Token) : completion string :=
  match ts with
  | [] => Normal EmptyString
  | t :: rest =>
      r <- render_token o t ;;
      rs <- render_tokens o rest ;;
      Normal (r ++ rs)
  end.

(** [md.render(src)] *)
Definition markdown_render `{Parser} (o : Options) (src : string) : completion string :=
  render_tokens o (parse o src).

(** A line of printable ASCII: no line break, no NUL. *)
Definition printable (c : ascii) : bool :=
  (32 <=? nat_of_ascii c)%nat && (nat_of_ascii c <=? 126)%nat.

Fixpoint plain_line (s : string) : bool :=
  match s with
  | EmptyString => true
  | String c rest => printable c && plain_line rest
  end.

Definition script_block (js : string) : string := "<script>" ++ js ++ "</script>".

(** What [html: true] means for the parser on a one-line script element:
    the line is an HTML block and is kept as it is. *)
Definition html_enabled (P : Parser) : Prop :=
  forall o js, html o = true -> plain_line js = true ->
    parse o (script_block js) = [html_block (script_block js)].

End Deps.

(** ** The component *)

Module ChatWindow.

Import Js Deps.

(** *** Data *)

Record Message := { role : string; content : string }.

(** The reactive properties of the element. *)
Record Props := {
  messages : list Message;
  inputText : string;
  isLoading : bool;
  waitingForFirstToken : bool
}.

Record CustomEvent := { type : string; detail : option string }.

Record KeyboardEvent := { key : string; shiftKey : bool }.

(** What a child expression of a lit template can be here: a string,
    which lit writes as a text node, or the [unsafeHTML] directive, whose
    argument lit parses as HTML. *)
Inductive Content :=
| Text (s : string)
| UnsafeHTML (markup : string).

(** *** The formatter *)

Section Formatter.

Context {hljs : HighlightJs} {parser : Parser}.

(** The [highlight] option of [md] (lines 13-20). *)
Definition md_highlight (str lang : string) : completion string :=
  if truthy lang && defined (getLanguage lang) then
    try_return
      (r <- hljs_highlight str lang ;; Normal (value r))
      (Normal "")
  else Normal "".

(** [const md = new MarkdownIt({...})] (lines 8-21). *)
Definition md : Options := {|
  html := true;
  linkify := true;
  typographer := true;
  breaks := true;
  highlight := md_highlight
|}.

(** [formatContent(message)] (lines 152-157). *)
Definition formatContent (message : Message) : completion Content :=
  if String.eqb (role message) "assistant" then
    markup <- markdown_render md (content message) ;;
    Normal (UnsafeHTML markup)
  else Normal (Text (content message)).

End Formatter.

(** Markup that a browser would run: raw HTML carrying a script element.
    A text node is never run, whatever characters it holds. *)
Definition carries_script (c : Content) : bool :=
  match c with
  | Text _ => false
  | UnsafeHTML markup => includes "<script" markup
  end.

(** *** The composer handlers *)

(** What a handler does to the world outside the component: it may cancel
    the default action of the event it handles, and it dispatches custom
    events to the host. *)
Record Effects := { defaultPrevented : bool; dispatched : list CustomEvent }.

Definition no_effects : Effects := {| defaultPrevented := false; dispatched := [] |}.

Definition preventDefault (fx : Effects) : Effects :=
  {| defaultPrevented := true; dispatched := dispatched fx |}.

Definition dispatchEvent (ev : CustomEvent) (fx : Effects) : Effects :=
  {| defaultPrevented := defaultPrevented fx; dispatched := dispatched fx ++ [ev] |}.

Definition send_message : CustomEvent := {| type := "send-message"; detail := None |}.

Definition input_change (value : string) : CustomEvent :=
  {| type := "input-change"; detail := Some value |}.

(** [handleKeyPress(e)] (lines 139-144). *)
Definition handleKeyPress (e : KeyboardEvent) (fx : Effects) : Effects :=
  if String.eqb (key e) "Enter" && negb (shiftKey e) then
    dispatchEvent send_message (preventDefault fx)
  else fx.

(** [handleInput(e)] (lines 146-150); [target_value] is [e.target.value]. *)
Definition handleInput (target_value : string) (fx : Effects) : Effects :=
  dispatchEvent (input_change target_value) fx.

(** The click listener of the button (line 227). *)
Definition handleClick (fx : Effects) : Effects :=
  dispatchEvent send_message fx.

(** *** The scroll controller *)

Record ScrollToOptions := { top : Z; behavior : string }.

(** The scrolling box of an element, as far as [scrollTo] is concerned:
    its metrics, its position, and the destination of the smooth scroll
    in flight, if any. *)
Record Scrollable := {
  scrollHeight : N;
  clientHeight : N;
  scrollTop : Z;
  smoothTarget : option Z
}.

(** The shadow tree, as far as the component queries it: what
    [querySelector('.messages-scroll')] finds. *)
Record ShadowRoot := { messages_scroll : option Scrollable }.

(** The closures handed to [requestAnimationFrame]; the component creates
    one kind only, the arrow function of [scrollToBottom]. *)
Inductive FrameCallback := scroll_callback.

(** The element with the part of the page it acts on: its properties,
    its shadow root ([null] until the element has rendered once), the
    browser's queue of animation-frame callbacks, the calls of [scrollTo]
    made so far and the exceptions no handler caught. *)
Record Element := {
  props : Props;
  shadowRoot : option ShadowRoot;
  frameQueue : list FrameCallback;
  scrollCalls : list ScrollToOptions;
  uncaught : list string
}.

Definition with_props (p : Props) (el : Element) : Element :=
  {| props := p; shadowRoot := shadowRoot el; frameQueue := frameQueue el;
     scrollCalls := scrollCalls el; uncaught := uncaught el |}.

Definition with_shadowRoot (r : option ShadowRoot) (el : Element) : Element :=
  {| props := props el; shadowRoot := r; frameQueue := frameQueue el;
     scrollCalls := scrollCalls el; uncaught := uncaught el |}.

Definition with_frameQueue (q : list FrameCallback) (el : Element) : Element :=
  {| props := props el; shadowRoot := shadowRoot el; frameQueue := q;
     scrollCalls := scrollCalls el; uncaught := uncaught el |}.

(** The browser's [requestAnimationFrame]: the callback joins the queue
    of the next frame; nothing already queued is touched. *)
Definition requestAnimationFrame (cb : FrameCallback) (el : Element) : Element :=
  with_frameQueue (frameQueue el ++ [cb]) el.

(** The largest offset the box can be scrolled to. *)
Definition maxScrollTop (box : Scrollable) : Z :=
  Z.max 0 (Z.of_N (scrollHeight box) - Z.of_N (clientHeight box)).

(** The browser's [element.scrollTo(options)] with smooth behaviour: the
    requested offset is clamped to the scrollable range and becomes the
    destination of the smooth scroll, replacing the one in flight. *)
Definition scrollTo (options : ScrollToOptions) (box : Scrollable) : Scrollable :=
  {| scrollHeight := scrollHeight box;
     clientHeight := clientHeight box;
     scrollTop := scrollTop box;
     smoothTarget := Some (Z.max 0 (Z.min (top options) (maxScrollTop box))) |}.

(** The arrow function of [scrollToBottom] (lines 160-169), run by the
    browser in a later frame.  [this.shadowRoot.querySelector] throws a
    TypeError when [this.shadowRoot] is [null]. *)
Definition run_scroll_callback (el : Element) : completion Element :=
  match shadowRoot el with
  | None => Throw "TypeError"
  | Some root =>
      match messages_scroll root with
      | Some container =>
          let options := {| top := Z.of_N (scrollHeight container); behavior := "smooth" |} in
          Normal {| props := props el;
                    shadowRoot := Some {| messages_scroll := Some (scrollTo options container) |};
                    frameQueue := frameQueue el;
                    scrollCalls := scrollCalls el ++ [options];
                    uncaught := uncaught el |}
      | None => Normal el
      end
  end.

(** [scrollToBottom()] (lines 159-170). *)
Definition scrollToBottom (el : Element) : Element :=
  requestAnimationFrame scroll_callback el.

(** [updated(changedProperties)] (lines 172-176); the argument is the
    key set of the map lit passes. *)
Definition updated (changedProperties : list string) (el : Element) : Element :=
  if existsb (String.eqb "messages") changedProperties then scrollToBottom el else el.

(** [firstUpdated()] (lines 178-180). *)
Definition firstUpdated (el : Element) : Element :=
  scrollToBottom el.

(** *** The template *)

(** One row of the message log (lines 192-209). *)
Record MessageBlock := {
  justify : string;
  colours : string;
  body : Content;
  typing_indicator : bool;
  onrendered : Element -> Element
}.

Record Textarea := {
  value : string;
  oninput : string -> Effects -> Effects;
  onkeypress : KeyboardEvent -> Effects -> Effects;
  textarea_disabled : bool
}.

Record Button := {
  onclick : Effects -> Effects;
  button_disabled : bool;
  label : string
}.

Record View := {
  blocks : list MessageBlock;
  textarea : Textarea;
  button : Button
}.

Section Render.

Context {hljs : HighlightJs} {parser : Parser}.

(** The body of the arrow function mapped over [this.messages]
    (lines 191-210). *)
Definition render_message (p : Props) (message : Message) (index : nat)
  : completion MessageBlock :=
  formatted <- formatContent message ;;
  Normal {|
    justify := if String.eqb (role message) "user" then "justify-end" else "justify-start";
    colours := if String.eqb (role message) "user"
               then "bg-blue-500 text-white" else "bg-white text-gray-800";
    body := formatted;
    typing_indicator :=
      String.eqb (role message) "assistant"
      && Z.eqb (Z.of_nat index) (Z.of_nat (List.length (messages p)) - 1)
      && waitingForFirstToken p;
    onrendered := scrollToBottom
  |}.

(** [this.messages.map((message, index) => ...)], from [index] on. *)
Fixpoint render_messages (p : Props) (index : nat) (ms : list Message)
  : completion (list MessageBlock) :=
  match ms with
  | [] => Normal []
  | message :: rest =>
      b <- render_message p message index ;;
      bs <- render_messages p (S index) rest ;;
      Normal (b :: bs)
  end.

(** The textarea of the composer (lines 216-224). *)
Definition render_textarea (p : Props) : Textarea := {|
  value := inputText p;
  oninput := handleInput;
  onkeypress := handleKeyPress;
  textarea_disabled := isLoading p
|}.

(** The button of the composer (lines 225-231). *)
Definition render_button (p : Props) : Button := {|
  onclick := handleClick;
  button_disabled := isLoading p;
  label := if isLoading p then "Sending..." else "Send"
|}.

(** [render()] (lines 182-236). *)
Definition render (p : Props) : completion View :=
  bs <- render_messages p 0 (messages p) ;;
  Normal {| blocks := bs; textarea := render_textarea p; button := render_button p |}.

End Render.

End ChatWindow.

(** ** The platform around the component

    lit's update cycle and the browser: how user input reaches the
    composer's controls, how the page is laid out after a render, and how
    the callbacks of an animation frame are run. *)

Module Platform.

Import Js Deps ChatWindow.

(** *** User input on the composer *)

Inductive UserEvent :=
| KeyPress (e : KeyboardEvent)
| Paste (text : string)
| ClickSend.

(** The composer as the user meets it: the element's properties, the
    text in the textarea with the caret in it, and the custom events the
    host has heard so far. *)
Record Composer := {
  owner : Props;
  draft : string;
  caret : nat;
  heard : list CustomEvent
}.

Definition mount (p : Props) : Composer :=
  {| owner := p; draft := inputText p; caret := String.length (inputText p); heard := [] |}.

Definition hear (fx : Effects) (c : Composer) : Composer :=
  {| owner := owner c; draft := draft c; caret := caret c;
     heard := heard c ++ dispatched fx |}.

(** The text a key press would type: a line break for Enter, the
    character itself for a one-character key. *)
Definition key_text (k : string) : option string :=
  if String.eqb k "Enter" then Some newline
  else if Nat.eqb (String.length k) 1 then Some k
  else None.

(** The browser edits the textarea: the text goes in at the caret, then
    the [input] event is fired on the control. *)
Definition insert_text (control : Textarea) (text : string) (c : Composer) : Composer :=
  let edited := splice (caret c) text (draft c) in
  hear (oninput control edited no_effects)
       {| owner := owner c; draft := edited;
          caret := caret c + String.length text; heard := heard c |}.

(** One user event.  A disabled control receives none; on an enabled
    one the listener runs first and the default action follows unless
    the listener cancelled it. *)
Definition deliver (u : UserEvent) (c : Composer) : Composer :=
  let control := render_textarea (owner c) in
  let send := render_button (owner c) in
  match u with
  | KeyPress e =>
      if textarea_disabled control then c
      else
        let fx := onkeypress control e no_effects in
        let c' := hear fx c in
        if defaultPrevented fx then c'
        else match key_text (key e) with
             | Some text => insert_text control text c'
             | None => c'
             end
  | Paste text =>
      if textarea_disabled control then c else insert_text control text c
  | ClickSend =>
      if button_disabled send then c else hear (onclick send no_effects) c
  end.

(** The two key presses the composer tells apart. *)
Definition enter : KeyboardEvent := {| key := "Enter"; shiftKey := false |}.
Definition shift_enter : KeyboardEvent := {| key := "Enter"; shiftKey := true |}.

Definition deliver_all (us : list UserEvent) (c : Composer) : Composer :=
  fold_left (fun c u => deliver u c) us c.

Definition is_send (ev : CustomEvent) : bool := String.eqb (type ev) "send-message".

(** The number of submit events among [evs]. *)
Definition submits (evs : list CustomEvent) : nat :=
  List.length (filter is_send evs).

(** *** Animation frames *)

(** The options with which the scroll callback calls [scrollTo] on [box]. *)
Definition to_bottom (box : Scrollable) : ScrollToOptions :=
  {| top := Z.of_N (scrollHeight box); behavior := "smooth" |}.

Definition report (error : string) (el : Element) : Element :=
  {| props := props el; shadowRoot := shadowRoot el; frameQueue := frameQueue el;
     scrollCalls := scrollCalls el; uncaught := uncaught el ++ [error] |}.

Definition run_callback (cb : FrameCallback) (el : Element) : Element :=
  match cb with
  | scroll_callback =>
      match run_scroll_callback el with
      | Normal el' => el'
      | Throw error => report error el
      end
  end.

(** One frame: the callbacks queued before it run in order; an exception
    in one of them is reported and the others still run. *)
Definition run_frame (el : Element) : Element :=
  fold_left (fun el cb => run_callback cb el) (frameQueue el) (with_frameQueue [] el).

(** *** Layout and lit's update cycle *)

(** The height the browser gives to a rendered message log, and the
    height of the viewport it scrolls in. *)
Class Layout := {
  contentHeight : list Message -> N;
  viewportHeight : N
}.

Inductive Mutation :=
| Append (m : Message)
| UpdateLast (content : string).

Definition mutate (mu : Mutation) (ms : list Message) : list Message :=
  match mu with
  | Append m => ms ++ [m]
  | UpdateLast text =>
      match rev ms with
      | [] => []
      | newest :: earlier => rev earlier ++ [{| role := role newest; content := text |}]
      end
  end.

Definition with_messages (ms : list Message) (p : Props) : Props :=
  {| messages := ms; inputText := inputText p; isLoading := isLoading p;
     waitingForFirstToken := waitingForFirstToken p |}.

(** The element before it has rendered. *)
Definition fresh (p : Props) : Element :=
  {| props := p; shadowRoot := None; frameQueue := []; scrollCalls := []; uncaught := [] |}.

(** The content of the shadow tree is removed (the component is torn
    down); the shadow root itself stays attached. *)
Definition teardown (el : Element) : Element :=
  with_shadowRoot
    (match shadowRoot el with
     | Some _ => Some {| messages_scroll := None |}
     | None => None
     end) el.

Section Lifecycle.

Context {hljs : HighlightJs} {parser : Parser} {layout : Layout}.

(** The scrolling box after the browser has laid out the log [ms]. *)
Definition lay_out (ms : list Message) (before : option Scrollable) : Scrollable :=
  match before with
  | Some box =>
      {| scrollHeight := N.max (contentHeight ms) (clientHeight box);
         clientHeight := clientHeight box;
         scrollTop := scrollTop box;
         smoothTarget := smoothTarget box |}
  | None =>
      {| scrollHeight := N.max (contentHeight ms) viewportHeight;
         clientHeight := viewportHeight;
         scrollTop := 0;
         smoothTarget := None |}
  end.

Definition viewport (el : Element) : option Scrollable :=
  match shadowRoot el with
  | Some root => messages_scroll root
  | None => None
  end.

(** lit writes the rendered template into the shadow root. *)
Definition commit (el : Element) : Element :=
  with_shadowRoot
    (Some {| messages_scroll := Some (lay_out (messages (props el)) (viewport el)) |}) el.

(** One update of the element after the first: [render], then
    [updated]; when [render] throws, nothing is committed and
    [updated] is not called. *)
Definition update (changedProperties : list string) (p : Props) (el : Element) : Element :=
  match render p with
  | Normal _ => updated changedProperties (commit (with_props p el))
  | Throw error => report error (with_props p el)
  end.

(** The first update: [render], then [firstUpdated], then [updated]. *)
Definition first_update (changedProperties : list string) (p : Props) (el : Element) : Element :=
  match render p with
  | Normal _ => updated changedProperties (firstUpdated (commit (with_props p el)))
  | Throw error => report error (with_props p el)
  end.

(** The host replaces the message list by a mutated copy. *)
Definition host_mutation (mu : Mutation) (el : Element) : Element :=
  update ["messages"] (with_messages (mutate mu (messages (props el))) (props el)) el.

Definition host_mutations (mus : list Mutation) (el : Element) : Element :=
  fold_left (fun el mu => host_mutation mu el) mus el.

(** The states an element goes through: it renders a first time, and
    from then on it is updated, frames run, and it may be torn down. *)
Inductive reachable : Element -> Prop :=
| reach_first changed p :
    reachable (first_update changed p (fresh p))
| reach_update changed p el :
    reachable el -> reachable (update changed p el)
| reach_frame el :
    reachable el -> reachable (run_frame el)
| reach_teardown el :
    reachable el -> reachable (teardown el).

End Lifecycle.

End Platform.

(** ** Sample collaborators, for concrete runs *)

Module Samples.

Import Js Deps ChatWindow Platform.

(** A highlighter that knows one language and fails on one input. *)
Definition hljs : HighlightJs := {|
  Language := unit;
  getLanguage := fun name => if String.eqb name "js" then Some tt else None;
  hljs_highlight := fun code language =>
    if String.eqb code "boom" then Throw "Error"
    else Normal {| Deps.value := "<span class=hljs-title>" ++ escapeHtml code ++ "</span>" |}
|}.

(** A parser that knows script lines and [js] code fences of one line. *)
Definition parser : Parser := {|
  parse := fun o src =>
    if html o && String.prefix "<script>" src then [html_block src]
    else if String.prefix "```js " src
    then [other "<p>code:</p>";
          fence "js" (substring 6 (String.length src - 6) src);
          other "<p>done</p>"]
    else [other ("<p>" ++ escapeHtml src ++ "</p>" ++ newline)]
|}.

Definition layout : Layout := {|
  contentHeight := fun ms => (100 * N.of_nat (List.length ms))%N;
  viewportHeight := 250%N
|}.

Definition idle : Props :=
  {| messages := [{| role := "user"; content := "hi" |}];
     inputText := "hello"; isLoading := false; waitingForFirstToken := false |}.

Definition waiting : Props :=
  {| messages := [{| role := "user"; content := "hi" |};
                  {| role := "assistant"; content := "" |}];
     inputText := ""; isLoading := true; waitingForFirstToken := true |}.

(** An element that has rendered, with a log taller than its viewport. *)
Definition rendered : Element :=
  {| props := idle;
     shadowRoot := Some {| messages_scroll :=
       Some {| scrollHeight := 500; clientHeight := 200; scrollTop := 0; smoothTarget := None |} |};
     frameQueue := []; scrollCalls := []; uncaught := [] |}.

End Samples.

(** ** Observations on runs of the component *)

Module Observers.

Import Js Deps ChatWindow Platform.

Definition is_input_change (ev : CustomEvent) : bool :=
  String.eqb (type ev) "input-change".

(** The draft as the host knows it: the detail of the last [input-change]
    event it has heard, or [initial] when it has heard none. *)
Definition last_reported (evs : list CustomEvent) (initial : string) : string :=
  fold_left
    (fun text ev =>
       if is_input_change ev
       then match detail ev with Some reported => reported | None => text end
       else text)
    evs initial.

(** The user events that ask for a submission: Enter without Shift, and a
    click on the send button. *)
Definition submitting (u : UserEvent) : bool :=
  match u with
  | KeyPress e => String.eqb (key e) "Enter" && negb (shiftKey e)
  | Paste _ => false
  | ClickSend => true
  end.

(** An update of the element: the changed property names and the new
    properties. *)
Definition Step : Type := list string * Props.

Definition changes_messages (step : Step) : bool :=
  existsb (String.eqb "messages") (fst step).

Section Runs.

Context {hljs : HighlightJs} {parser : Parser} {layout : Layout}.

Definition updates (steps : list Step) (el : Element) : Element :=
  fold_left (fun el step => update (fst step) (snd step) el) steps el.

End Runs.

End Observers.

(** * Properties *)

(** ** Strings *)

Module JsFacts.

Import Js.

Lemma length_append (a b : string) :
  String.length (a ++ b) = String.length a + String.length b.
Proof.
  induction a as [|c a IH]; simpl; [reflexivity | now rewrite IH].
Qed.

Lemma append_assoc (a b c : string) : (a ++ b) ++ c = a ++ b ++ c.
Proof.
  induction a as [|x a IH]; simpl; [reflexivity | now rewrite IH].
Qed.

Lemma append_empty_r (a : string) : a ++ "" = a.
Proof.
  induction a as [|x a IH]; simpl; [reflexivity | now rewrite IH].
Qed.

Lemma prefix_append (needle rest : string) :
  String.prefix needle (needle ++ rest) = true.
Proof.
  induction needle as [|c needle IH]; simpl.
  - now destruct rest.
  - destruct (ascii_dec c c) as [_|ne]; [exact IH | now elim ne].
Qed.

Lemma includes_prefix (needle hay : string) :
  String.prefix needle hay = true -> includes needle hay = true.
Proof.
  intros is_prefix. destruct hay; cbn [includes]; now rewrite is_prefix.
Qed.

Lemma includes_middle (needle before after : string) :
  includes needle (before ++ needle ++ after) = true.
Proof.
  induction before as [|c before IH].
  - cbn [append]. apply includes_prefix, prefix_append.
  - cbn [append includes]. rewrite IH. apply orb_true_r.
Qed.

Lemma length_substring (s : string) :
  forall n m, String.length (substring n m s) = Nat.min m (String.length s - n).
Proof.
  induction s as [|c s IH]; intros [|n] [|m]; simpl; try reflexivity.
  - now rewrite IH, Nat.sub_0_r.
  - now rewrite IH.
  - now rewrite IH.
Qed.

Lemma length_splice (at_ : nat) (s v : string) :
  String.length (splice at_ s v) = String.length v + String.length s.
Proof.
  unfold splice. rewrite !length_append, !length_substring. lia.
Qed.

Lemma splice_end (s v : string) : splice (String.length v) s v = v ++ s.
Proof.
  unfold splice. rewrite Nat.sub_diag.
  assert (whole : forall w, substring 0 (String.length w) w = w).
  { induction w as [|c w IH]; simpl; [reflexivity | now rewrite IH]. }
  assert (none : forall w n, substring n 0 w = "").
  { induction w as [|c w IH]; intros [|n]; simpl; auto. }
  now rewrite whole, none, append_empty_r.
Qed.

End JsFacts.

(** ** The content formatter *)

Module FormatterFacts.

Import Js Deps ChatWindow JsFacts.

Lemma prefix_empty (s : string) : String.prefix "" s = true.
Proof. now destruct s. Qed.

(** Escaped text reads back as the text that was escaped. *)
Lemma decodeEntities_escapeHtml (s : string) : decodeEntities 0 (escapeHtml s) = s.
Proof.
  induction s as [|c s IH]; [reflexivity|].
  destruct c as [[] [] [] [] [] [] [] []];
    cbn; rewrite ?prefix_empty; now rewrite IH.
Qed.

Section WithDeps.

Context {hljs : HighlightJs} {parser : Parser}.

(** The highlight option returns on every input: whatever
    [hljs.highlight] does, no exception leaves it. *)
Lemma md_highlight_returns (str lang : string) :
  exists h, md_highlight str lang = Normal h.
Proof.
  unfold md_highlight.
  destruct (truthy lang && defined (getLanguage lang)); [|now exists ""].
  destruct (hljs_highlight str lang) as [r|e]; simpl; eauto.
Qed.

(** The rule for a fence puts the block's body between an opening and
    a closing piece of markup. *)
Lemma fence_rule_shape (lang str h : string) :
  md_highlight str lang = Normal h ->
  exists opening closing,
    fence_rule md lang str = Normal (opening ++ or_else h (escapeHtml str) ++ closing).
Proof.
  intros E. unfold fence_rule, fence_body. cbn [highlight md].
  rewrite E. cbn [bind].
  destruct (starts_with "<pre" (or_else h (escapeHtml str))).
  - now exists "", newline.
  - destruct (truthy lang).
    + exists ("<pre><code class=" ++ dquote ++ "language-" ++ escapeHtml lang ++ dquote ++ ">"),
             ("</code></pre>" ++ newline).
      now rewrite !append_assoc.
    + now exists "<pre><code>", ("</code></pre>" ++ newline).
Qed.

Lemma render_token_returns (t : Token) : exists r, render_token md t = Normal r.
Proof.
  destruct t as [lang str|raw|done]; cbn [render_token]; eauto.
  destruct (md_highlight_returns str lang) as [h E].
  destruct (fence_rule_shape lang str h E) as (opening & closing & R). eauto.
Qed.

Lemma render_tokens_returns (ts : list Token) : exists r, render_tokens md ts = Normal r.
Proof.
  induction ts as [|t ts [rs IH]]; cbn [render_tokens]; [eauto|].
  destruct (render_token_returns t) as [r E]. rewrite E, IH. cbn [bind]. eauto.
Qed.

(** Rendering a token list splits at any point into the renderings of
    the two parts. *)
Lemma render_tokens_app (before after : list Token) (rb ra : string) :
  render_tokens md before = Normal rb ->
  render_tokens md after = Normal ra ->
  render_tokens md (before ++ after) = Normal (rb ++ ra).
Proof.
  revert rb. induction before as [|t before IH]; intros rb Eb Ea.
  - cbn in Eb. injection Eb as <-. exact Ea.
  - cbn [render_tokens app] in *.
    destruct (render_token md t) as [r|e]; cbn [bind] in *; [|discriminate].
    destruct (render_tokens md before) as [rs|e]; cbn [bind] in *; [|discriminate].
    injection Eb as <-. rewrite (IH rs eq_refl Ea). cbn [bind].
    now rewrite append_assoc.
Qed.

Lemma render_tokens_around (before after : list Token) (t : Token) (r : string) :
  render_token md t = Normal r ->
  exists rb ra,
    render_tokens md before = Normal rb /\
    render_tokens md after = Normal ra /\
    render_tokens md (before ++ t :: after) = Normal (rb ++ r ++ ra).
Proof.
  intros E.
  destruct (render_tokens_returns before) as [rb Eb].
  destruct (render_tokens_returns after) as [ra Ea].
  exists rb, ra. repeat split; trivial.
  apply render_tokens_app; trivial.
  cbn [render_tokens]. now rewrite E, Ea.
Qed.

Lemma markdown_render_returns (src : string) :
  exists markup, markdown_render md src = Normal markup.
Proof. apply render_tokens_returns. Qed.

(** [formatContent] returns on every message. *)
Lemma formatContent_returns (m : Message) : exists c, formatContent m = Normal c.
Proof.
  unfold formatContent. destruct (String.eqb (role m) "assistant"); [|eauto].
  destruct (markdown_render_returns (content m)) as [markup E]. rewrite E. cbn. eauto.
Qed.

End WithDeps.

End FormatterFacts.

Module Formatter.

Import Js Deps ChatWindow JsFacts FormatterFacts.

Lemma sample_parser_html_enabled : html_enabled Samples.parser.
Proof.
  intros o js enabled _. unfold script_block.
  cbn [parse Samples.parser]. now rewrite enabled, prefix_append.
Qed.

Lemma or_else_holds (h fallback : string) :
  exists before after, or_else h fallback = before ++ h ++ after.
Proof.
  unfold or_else. destruct h as [|c h]; cbn [truthy].
  - now exists "", fallback.
  - exists "", "". cbn [append]. now rewrite append_empty_r.
Qed.

Section WithDeps.

Context {hljs : HighlightJs} {parser : Parser}.

Lemma formatContent_assistant (m : Message) (before after : list Token) (t : Token) (r : string) :
  role m = "assistant" ->
  parse md (content m) = (before ++ t :: after)%list ->
  render_token md t = Normal r ->
  exists rb ra,
    render_tokens md before = Normal rb /\
    render_tokens md after = Normal ra /\
    formatContent m = Normal (UnsafeHTML (rb ++ r ++ ra)).
Proof.
  intros is_assistant tokens rendered.
  destruct (render_tokens_around before after t r rendered) as (rb & ra & Eb & Ea & E).
  exists rb, ra. repeat split; trivial.
  unfold formatContent, markdown_render.
  now rewrite is_assistant, tokens, E.
Qed.

Lemma formatContent_script (m : Message) (js : string) :
  html_enabled parser ->
  role m = "assistant" -> plain_line js = true -> content m = script_block js ->
  formatContent m = Normal (UnsafeHTML (script_block js)).
Proof.
  intros passes is_assistant plain is_script.
  unfold formatContent, markdown_render.
  rewrite is_assistant, is_script. cbn [String.eqb Ascii.eqb Bool.eqb].
  rewrite (passes md js eq_refl plain). cbn [render_tokens render_token bind].
  now rewrite append_empty_r.
Qed.

Lemma script_block_carries_script (js : string) :
  carries_script (UnsafeHTML (script_block js)) = true.
Proof.
  apply (includes_middle "<script" "" (">" ++ js ++ "</script>")).
Qed.

(** C1: for a message whose role is user, [formatContent] returns the
    content itself, as a text value: the markdown renderer and the
    highlighter take no part, whatever characters the content holds. *)
Theorem formatContent_user_literal (m : Message) :
  role m = "user" ->
  formatContent m = Normal (Text (content m)).
Proof.
  intros is_user. unfold formatContent. now rewrite is_user.
Qed.

(** C2, as amended: for a message whose role is assistant,
    [formatContent] returns what [md.render] makes of the content,
    wrapped in [unsafeHTML] and not sanitised; [md] has [html] switched
    on, so a script element in the content reaches the output as it
    is. *)
Theorem formatContent_assistant_raw_html (m : Message) :
  role m = "assistant" ->
  html md = true /\
  (exists markup,
      markdown_render md (content m) = Normal markup /\
      formatContent m = Normal (UnsafeHTML markup)) /\
  (html_enabled parser ->
   forall js, plain_line js = true -> content m = script_block js ->
     formatContent m = Normal (UnsafeHTML (script_block js)) /\
     carries_script (UnsafeHTML (script_block js)) = true).
Proof.
  intros is_assistant. split; [reflexivity|]. split.
  - destruct (markdown_render_returns (content m)) as [markup E].
    exists markup. split; [exact E|].
    unfold formatContent. now rewrite is_assistant, E.
  - intros passes js plain is_script. split.
    + now apply formatContent_script.
    + apply script_block_carries_script.
Qed.

(** C7: when the content of an assistant message holds a fenced block
    whose language tag highlight.js recognises, and [hljs.highlight]
    returns its result for the block, the highlight option returns that
    result's markup and the formatted output contains it. *)
Theorem recognised_fence_is_highlighted
    (m : Message) (lang str : string) (before after : list Token)
    (definition : Language) (r : HighlightResult) :
  role m = "assistant" ->
  parse md (content m) = (before ++ fence lang str :: after)%list ->
  truthy lang = true ->
  getLanguage lang = Some definition ->
  hljs_highlight str lang = Normal r ->
  md_highlight str lang = Normal (Deps.value r) /\
  exists pre post,
    formatContent m = Normal (UnsafeHTML (pre ++ Deps.value r ++ post)).
Proof.
  intros is_assistant tokens tagged known highlighted.
  assert (H : md_highlight str lang = Normal (Deps.value r)).
  { unfold md_highlight. now rewrite tagged, known, highlighted. }
  split; [exact H|].
  destruct (fence_rule_shape lang str _ H) as (opening & closing & shape).
  destruct (or_else_holds (Deps.value r) (escapeHtml str)) as (a & b & held).
  rewrite held in shape.
  destruct (formatContent_assistant m before after (fence lang str) _ is_assistant tokens shape)
    as (rb & ra & _ & _ & E).
  exists (rb ++ opening ++ a), (b ++ closing ++ ra).
  rewrite E. now rewrite !append_assoc.
Qed.

(** C8: when the language tag of a fenced block is absent or not
    recognised, or [hljs.highlight] throws on the block, the highlight
    option returns the empty string instead of throwing; the block's
    body is then its own text, escaped; and the message is rendered
    whole, the tokens before and after the block as they are rendered
    on their own. *)
Theorem highlight_failure_falls_back
    (m : Message) (lang str : string) (before after : list Token) :
  role m = "assistant" ->
  parse md (content m) = (before ++ fence lang str :: after)%list ->
  truthy lang = false \/ getLanguage lang = None \/
    (exists error, hljs_highlight str lang = Throw error) ->
  md_highlight str lang = Normal "" /\
  fence_body md lang str = Normal (escapeHtml str) /\
  decodeEntities 0 (escapeHtml str) = str /\
  exists rb ra opening closing,
    render_tokens md before = Normal rb /\
    render_tokens md after = Normal ra /\
    formatContent m =
      Normal (UnsafeHTML (rb ++ (opening ++ escapeHtml str ++ closing) ++ ra)).
Proof.
  intros is_assistant tokens failure.
  assert (H : md_highlight str lang = Normal "").
  { unfold md_highlight.
    destruct failure as [untagged | [unknown | [error thrown]]].
    - now rewrite untagged.
    - rewrite unknown. cbn [defined]. now rewrite andb_false_r.
    - destruct (truthy lang && defined (getLanguage lang)); [|reflexivity].
      now rewrite thrown. }
  split; [exact H|]. split.
  { unfold fence_body. cbn [highlight md]. now rewrite H. }
  split; [apply decodeEntities_escapeHtml|].
  destruct (fence_rule_shape lang str _ H) as (opening & closing & shape).
  cbn [or_else truthy] in shape.
  destruct (formatContent_assistant m before after (fence lang str) _ is_assistant tokens shape)
    as (rb & ra & Eb & Ea & E).
  now exists rb, ra, opening, closing.
Qed.

End WithDeps.

Lemma formatContent_user_literal_witness :
  let m := {| role := "user"; content := "**hi** <script>alert(1)</script>" |} in
  role m = "user" /\
  @formatContent Samples.hljs Samples.parser m = Normal (Text "**hi** <script>alert(1)</script>").
Proof.
  split; [reflexivity|].
  apply (@formatContent_user_literal Samples.hljs Samples.parser); reflexivity.
Defined.

(** C2, as stated, fails: with a parser that honours [html: true], the
    formatted output for the assistant content
    [<script>alert(1)</script>] carries that script element. *)
Lemma assistant_script_reaches_output :
  ~ (exists (hljs : HighlightJs) (parser : Parser),
        html_enabled parser /\
        forall c,
          formatContent {| role := "assistant"; content := script_block "alert(1)" |} = Normal c ->
          carries_script c = false).
Proof.
  intros (hljs & parser & passes & safe).
  specialize (safe _ (formatContent_script
                        {| role := "assistant"; content := script_block "alert(1)" |}
                        "alert(1)" passes eq_refl eq_refl eq_refl)).
  rewrite script_block_carries_script in safe. discriminate.
Qed.

Lemma formatContent_assistant_raw_html_witness :
  let m := {| role := "assistant"; content := script_block "alert(1)" |} in
  role m = "assistant" /\
  @formatContent Samples.hljs Samples.parser m =
    Normal (UnsafeHTML "<script>alert(1)</script>").
Proof.
  split; [reflexivity|].
  destruct (@formatContent_assistant_raw_html Samples.hljs Samples.parser
              {| role := "assistant"; content := script_block "alert(1)" |} eq_refl)
    as (_ & _ & passes).
  exact (proj1 (passes sample_parser_html_enabled "alert(1)" eq_refl eq_refl)).
Defined.

Lemma recognised_fence_is_highlighted_witness :
  let m := {| role := "assistant"; content := "```js let x = 1 < 2" |} in
  role m = "assistant" /\
  @md_highlight Samples.hljs "let x = 1 < 2" "js" =
    Normal "<span class=hljs-title>let x = 1 &lt; 2</span>" /\
  exists pre post,
    @formatContent Samples.hljs Samples.parser m =
      Normal (UnsafeHTML (pre ++ "<span class=hljs-title>let x = 1 &lt; 2</span>" ++ post)).
Proof.
  split; [reflexivity|].
  apply (@recognised_fence_is_highlighted Samples.hljs Samples.parser
           {| role := "assistant"; content := "```js let x = 1 < 2" |}
           "js" "let x = 1 < 2" [other "<p>code:</p>"] [other "<p>done</p>"] tt
           {| Deps.value := "<span class=hljs-title>let x = 1 &lt; 2</span>" |});
    reflexivity.
Defined.

Lemma highlight_failure_falls_back_witness :
  let m := {| role := "assistant"; content := "```js boom" |} in
  role m = "assistant" /\
  @md_highlight Samples.hljs "boom" "js" = Normal "" /\
  exists opening closing,
    @formatContent Samples.hljs Samples.parser m =
      Normal (UnsafeHTML ("<p>code:</p>" ++ (opening ++ "boom" ++ closing) ++ "<p>done</p>")).
Proof.
  split; [reflexivity|].
  destruct (@highlight_failure_falls_back Samples.hljs Samples.parser
              {| role := "assistant"; content := "```js boom" |}
              "js" "boom" [other "<p>code:</p>"] [other "<p>done</p>"]
              eq_refl eq_refl (or_intror (or_intror (ex_intro _ "Error" eq_refl))))
    as (fallback & _ & _ & rb & ra & opening & closing & Eb & Ea & E).
  split; [exact fallback|].
  exists opening, closing.
  cbn in Eb, Ea. injection Eb as <-. injection Ea as <-. exact E.
Defined.

End Formatter.

(** ** The composer *)

Module Composer.

Import Js Deps ChatWindow Platform JsFacts.

Lemma handleKeyPress_enter (fx : Effects) :
  handleKeyPress enter fx = dispatchEvent send_message (preventDefault fx).
Proof. reflexivity. Qed.

Lemma handleKeyPress_shift_enter (fx : Effects) : handleKeyPress shift_enter fx = fx.
Proof. reflexivity. Qed.

Lemma submits_app (a b : list CustomEvent) :
  submits (a ++ b)%list = submits a + submits b.
Proof. unfold submits. now rewrite filter_app, length_app. Qed.

Lemma hear_nothing (c : Composer) : hear no_effects c = c.
Proof. destruct c. unfold hear. cbn. now rewrite app_nil_r. Qed.

(** C3: in the idle composer, Enter without Shift makes the host hear
    exactly one more event, the submit event, cancels the default action
    and leaves the draft as it was; Shift+Enter makes the host hear no
    submit event, leaves the properties (and so the idle state) as they
    were, and puts one line break into the draft, at the caret. *)
Theorem enter_submits_and_shift_enter_breaks_line (c : Composer) :
  isLoading (owner c) = false ->
  (heard (deliver (KeyPress enter) c) = (heard c ++ [send_message])%list /\
   defaultPrevented (handleKeyPress enter no_effects) = true /\
   draft (deliver (KeyPress enter) c) = draft c) /\
  (submits (heard (deliver (KeyPress shift_enter) c)) = submits (heard c) /\
   owner (deliver (KeyPress shift_enter) c) = owner c /\
   draft (deliver (KeyPress shift_enter) c) = splice (caret c) newline (draft c) /\
   String.length (draft (deliver (KeyPress shift_enter) c)) = S (String.length (draft c))).
Proof.
  intros idle_state. unfold deliver. cbn [render_textarea textarea_disabled onkeypress oninput].
  rewrite idle_state. split.
  - rewrite handleKeyPress_enter. cbn. auto.
  - rewrite handleKeyPress_shift_enter. cbn [defaultPrevented no_effects].
    rewrite hear_nothing. cbn [key shift_enter key_text String.eqb Ascii.eqb Bool.eqb].
    unfold insert_text, hear, handleInput, dispatchEvent.
    cbn [heard owner draft dispatched no_effects app].
    rewrite submits_app. cbn. rewrite length_splice. cbn.
    repeat split; lia.
Qed.

(** C6: while [isLoading] is true, no user event changes anything: after
    any sequence of key presses, pastes and clicks on the send button the
    host has heard what it had heard before and the draft is the same. *)
Theorem loading_composer_is_inert (c : Composer) (us : list UserEvent) :
  isLoading (owner c) = true ->
  deliver_all us c = c /\
  heard (deliver_all us c) = heard c /\
  draft (deliver_all us c) = draft c.
Proof.
  intros loading.
  assert (one : forall u, deliver u c = c).
  { intros [e|text|]; unfold deliver;
      cbn [render_textarea render_button textarea_disabled button_disabled];
      now rewrite loading. }
  assert (all : deliver_all us c = c).
  { unfold deliver_all. induction us as [|u us IH]; cbn [fold_left]; [reflexivity|].
    now rewrite one. }
  now rewrite all.
Qed.

(** C10: in the idle composer the submit event is dispatched whatever
    the draft holds: for every draft text, Enter without Shift and a
    click on the button each make the host hear one more [send-message]. *)
Theorem submission_ignores_draft
    (p : Props) (text : string) (position : nat) (before : list CustomEvent) :
  isLoading p = false ->
  let c := {| owner := p; draft := text; caret := position; heard := before |} in
  heard (deliver (KeyPress enter) c) = (before ++ [send_message])%list /\
  heard (deliver ClickSend c) = (before ++ [send_message])%list.
Proof.
  intros idle_state c. unfold deliver.
  cbn [render_textarea render_button textarea_disabled button_disabled onkeypress onclick owner c].
  rewrite idle_state. split; reflexivity.
Qed.

Lemma enter_submits_and_shift_enter_breaks_line_witness :
  let c := mount Samples.idle in
  isLoading (owner c) = false /\
  heard (deliver (KeyPress enter) c) = [send_message] /\
  draft (deliver (KeyPress enter) c) = "hello" /\
  draft (deliver (KeyPress shift_enter) c) = "hello" ++ newline.
Proof.
  split; [reflexivity|].
  destruct (enter_submits_and_shift_enter_breaks_line (mount Samples.idle) eq_refl)
    as ((submitted & _ & kept) & (_ & _ & broken & _)).
  split; [exact submitted|]. split; [exact kept|].
  rewrite broken. apply splice_end.
Defined.

Lemma loading_composer_is_inert_witness :
  let c := mount Samples.waiting in
  let us := [KeyPress enter; ClickSend; Paste "more"; KeyPress shift_enter] in
  isLoading (owner c) = true /\ deliver_all us c = c.
Proof.
  split; [reflexivity|].
  apply (loading_composer_is_inert (mount Samples.waiting)). reflexivity.
Defined.

Lemma submission_ignores_draft_witness :
  let c := {| owner := Samples.idle; draft := "   "; caret := 0; heard := [] |} in
  isLoading Samples.idle = false /\
  heard (deliver (KeyPress enter) c) = [send_message] /\
  heard (deliver ClickSend c) = [send_message].
Proof.
  split; [reflexivity|].
  apply (submission_ignores_draft Samples.idle "   " 0 []). reflexivity.
Defined.

End Composer.

(** ** The message list *)

Module MessageList.

Import Js Deps ChatWindow Platform JsFacts FormatterFacts.

Section WithDeps.

Context {hljs : HighlightJs} {parser : Parser}.

(** The flag [render_message] computes for the message at [index]. *)
Lemma render_message_indicator (p : Props) (m : Message) (index : nat) :
  exists b,
    render_message p m index = Normal b /\
    typing_indicator b =
      String.eqb (role m) "assistant"
      && Z.eqb (Z.of_nat index) (Z.of_nat (List.length (messages p)) - 1)
      && waitingForFirstToken p.
Proof.
  unfold render_message.
  destruct (formatContent_returns m) as [c E]. rewrite E. cbn [bind].
  eexists. split; reflexivity.
Qed.

(** [render_messages] returns one block per message, and the block at
    offset [i] carries the flag of the message at offset [i]. *)
Lemma render_messages_blocks (p : Props) (ms : list Message) :
  forall first,
  exists bs,
    render_messages p first ms = Normal bs /\
    List.length bs = List.length ms /\
    forall i b, nth_error bs i = Some b ->
      exists m,
        nth_error ms i = Some m /\
        typing_indicator b =
          String.eqb (role m) "assistant"
          && Z.eqb (Z.of_nat (first + i)) (Z.of_nat (List.length (messages p)) - 1)
          && waitingForFirstToken p.
Proof.
  induction ms as [|m ms IH]; intros first; cbn [render_messages].
  - exists []. repeat split; trivial. intros [|i] b; discriminate.
  - destruct (render_message_indicator p m first) as (b & Eb & flag).
    destruct (IH (S first)) as (bs & Ebs & same & flags).
    rewrite Eb, Ebs. cbn [bind]. exists (b :: bs).
    split; [reflexivity|]. split; [cbn; now rewrite same|].
    intros [|i] b' at_i; cbn in at_i.
    + injection at_i as <-. exists m. now rewrite Nat.add_0_r.
    + destruct (flags i b' at_i) as (m' & at_m & flag').
      exists m'. split; [exact at_m|].
      now rewrite flag', Nat.add_succ_r.
Qed.

Lemma last_message (ms : list Message) (i : nat) (m : Message) :
  nth_error ms i = Some m -> S i = List.length ms ->
  exists earlier, ms = (earlier ++ [m])%list.
Proof.
  intros at_i is_last.
  destruct (nth_error_split ms i at_i) as (earlier & later & -> & <-).
  rewrite length_app in is_last. cbn in is_last.
  destruct later; [now exists earlier | cbn in is_last; lia].
Qed.

(** C4: [render] returns a view with one block per message; some block
    carries the typing indicator exactly when the last message is the
    assistant's and [waitingForFirstToken] is true; and a block that
    carries it is the block of the last message. *)
Theorem typing_indicator_on_last_assistant_only (p : Props) :
  exists v,
    render p = Normal v /\
    List.length (blocks v) = List.length (messages p) /\
    (existsb typing_indicator (blocks v) = true <->
     (exists earlier m, messages p = (earlier ++ [m])%list /\ role m = "assistant")
     /\ waitingForFirstToken p = true) /\
    (forall i b, nth_error (blocks v) i = Some b -> typing_indicator b = true ->
       S i = List.length (messages p)).
Proof.
  unfold render.
  destruct (render_messages_blocks p (messages p) 0) as (bs & E & same & flags).
  rewrite E. cbn [bind]. eexists. split; [reflexivity|]. cbn [blocks].
  split; [exact same|].
  assert (only_last : forall i b, nth_error bs i = Some b -> typing_indicator b = true ->
            exists m, nth_error (messages p) i = Some m /\ role m = "assistant" /\
                      S i = List.length (messages p) /\ waitingForFirstToken p = true).
  { intros i b at_i shown.
    destruct (flags i b at_i) as (m & at_m & flag).
    rewrite shown in flag. symmetry in flag.
    apply andb_true_iff in flag as [flag is_waiting].
    apply andb_true_iff in flag as [is_assistant is_last].
    apply String.eqb_eq in is_assistant. apply Z.eqb_eq in is_last.
    exists m. repeat split; trivial. cbn in is_last. lia. }
  split; [split|].
  - intros shown. apply existsb_exists in shown as (b & member & shown).
    apply In_nth_error in member as (i & at_i).
    destruct (only_last i b at_i shown) as (m & at_m & is_assistant & is_last & is_waiting).
    split; [|exact is_waiting].
    destruct (last_message _ _ _ at_m is_last) as (earlier & split_).
    now exists earlier, m.
  - intros ((earlier & m & split_ & is_assistant) & is_waiting).
    assert (at_m : nth_error (messages p) (List.length earlier) = Some m).
    { rewrite split_, nth_error_app2, Nat.sub_diag; [reflexivity | lia]. }
    assert (in_range : List.length earlier < List.length bs).
    { rewrite same, split_, length_app. cbn. lia. }
    apply nth_error_Some in in_range.
    destruct (nth_error bs (List.length earlier)) as [b|] eqn:at_b; [|contradiction].
    destruct (flags _ b at_b) as (m' & at_m' & flag).
    rewrite at_m in at_m'. injection at_m' as <-.
    apply existsb_exists. exists b. split; [eapply nth_error_In; eassumption|].
    rewrite flag, is_assistant, is_waiting, split_, length_app. cbn [String.eqb Ascii.eqb Bool.eqb].
    cbn [List.length Nat.add]. rewrite andb_true_r. cbn [andb].
    apply Z.eqb_eq. lia.
  - intros i b at_i shown.
    now destruct (only_last i b at_i shown) as (m & _ & _ & is_last & _).
Qed.

End WithDeps.

End MessageList.

(** ** The scroll controller *)

Module ScrollController.

Import Js Deps ChatWindow Platform JsFacts FormatterFacts.

(** Scrolling to the bottom aims at the largest offset. *)
Lemma scrollTo_bottom_target (box : Scrollable) :
  smoothTarget (scrollTo (to_bottom box) box) = Some (maxScrollTop (scrollTo (to_bottom box) box)).
Proof.
  unfold scrollTo, maxScrollTop. cbn. f_equal. lia.
Qed.

(** Doing it again changes nothing. *)
Lemma scrollTo_bottom_twice (box : Scrollable) :
  scrollTo (to_bottom (scrollTo (to_bottom box) box)) (scrollTo (to_bottom box) box)
  = scrollTo (to_bottom box) box.
Proof. reflexivity. Qed.

Lemma run_callback_viewport (el : Element) (box : Scrollable) :
  viewport el = Some box ->
  run_callback scroll_callback el =
    {| props := props el;
       shadowRoot := Some {| messages_scroll := Some (scrollTo (to_bottom box) box) |};
       frameQueue := frameQueue el;
       scrollCalls := scrollCalls el ++ [to_bottom box];
       uncaught := uncaught el |}.
Proof.
  unfold viewport, run_callback, run_scroll_callback.
  destruct (shadowRoot el) as [[found]|]; [|discriminate].
  cbn. now intros ->.
Qed.

(** A frame's callbacks on an element whose viewport exists: each one
    calls [scrollTo] with the same options, and the box ends up aimed at
    its largest offset. *)
Lemma run_callbacks_viewport (q : list FrameCallback) :
  forall el box,
    viewport el = Some box -> q <> [] ->
    let el' := fold_left (fun el cb => run_callback cb el) q el in
    viewport el' = Some (scrollTo (to_bottom box) box) /\
    scrollCalls el' = (scrollCalls el ++ repeat (to_bottom box) (List.length q))%list /\
    uncaught el' = uncaught el /\
    props el' = props el /\
    frameQueue el' = frameQueue el.
Proof.
  induction q as [|[] q IH]; intros el box found nonempty; [contradiction|].
  cbn [fold_left]. rewrite (run_callback_viewport el box found).
  destruct q as [|cb q].
  - cbn. repeat split; reflexivity.
  - match goal with |- context [fold_left _ _ ?e] => set (el1 := e) end.
    destruct (IH el1 (scrollTo (to_bottom box) box) eq_refl ltac:(discriminate))
      as (found' & calls & errors & same_props & same_queue).
    cbv zeta. rewrite found', calls, errors, same_props, same_queue.
    repeat split; try reflexivity.
    cbn [scrollCalls el1]. rewrite <- app_assoc. reflexivity.
Qed.

Section WithDeps.

Context {hljs : HighlightJs} {parser : Parser} {layout : Layout}.

Lemma render_returns (p : Props) : exists v, render p = Normal v.
Proof.
  unfold render.
  destruct (MessageList.render_messages_blocks p (messages p) 0) as (bs & E & _).
  rewrite E. cbn [bind]. eauto.
Qed.

Lemma host_mutation_unfold (mu : Mutation) (el : Element) :
  host_mutation mu el =
    scrollToBottom
      (commit (with_props (with_messages (mutate mu (messages (props el))) (props el)) el)).
Proof.
  unfold host_mutation, update.
  now destruct (render_returns (with_messages (mutate mu (messages (props el))) (props el)))
    as [v ->].
Qed.

(** What a run of host mutations leaves behind: one more queued
    callback per mutation, and no call of [scrollTo] yet. *)
Lemma host_mutations_pending (mus : list Mutation) :
  forall el,
    frameQueue (host_mutations mus el)
      = (frameQueue el ++ repeat scroll_callback (List.length mus))%list /\
    scrollCalls (host_mutations mus el) = scrollCalls el /\
    uncaught (host_mutations mus el) = uncaught el.
Proof.
  unfold host_mutations.
  induction mus as [|mu mus IH]; intros el; cbn [fold_left List.length repeat].
  - now rewrite app_nil_r.
  - destruct (IH (host_mutation mu el)) as (queue & calls & errors).
    rewrite queue, calls, errors, host_mutation_unfold. cbn.
    now rewrite <- app_assoc.
Qed.

(** After the last of them the log has been laid out afresh. *)
Lemma host_mutations_laid_out (mus : list Mutation) (el : Element) :
  mus <> [] ->
  exists box,
    viewport (host_mutations mus el) = Some box /\
    scrollHeight box
      = N.max (contentHeight (messages (props (host_mutations mus el)))) (clientHeight box).
Proof.
  intros nonempty.
  destruct (exists_last nonempty) as (earlier & mu & ->).
  unfold host_mutations. rewrite fold_left_app. cbn [fold_left].
  rewrite host_mutation_unfold.
  set (before := fold_left _ earlier el).
  eexists. split; [reflexivity|].
  cbn. unfold viewport. cbn [shadowRoot with_props].
  destruct (shadowRoot before) as [[[box|]]|]; reflexivity.
Qed.

(** C5, as amended: after one or more mutations of the message list
    the next frame leaves the viewport aimed at its largest scroll
    offset, for the log as last laid out.  The calls are not merged:
    each mutation queues a callback of its own, and the frame calls
    [scrollTo] once per queued callback, every time with the same
    options. *)
Theorem scroll_settles_at_bottom (el : Element) (mus : list Mutation) :
  mus <> [] ->
  let el' := host_mutations mus el in
  frameQueue el' = (frameQueue el ++ repeat scroll_callback (List.length mus))%list /\
  exists box,
    viewport (run_frame el') = Some box /\
    scrollHeight box = N.max (contentHeight (messages (props el'))) (clientHeight box) /\
    smoothTarget box = Some (maxScrollTop box) /\
    scrollCalls (run_frame el')
      = (scrollCalls el ++ repeat (to_bottom box) (List.length (frameQueue el')))%list /\
    frameQueue (run_frame el') = [] /\
    uncaught (run_frame el') = uncaught el.
Proof.
  intros nonempty el'.
  destruct (host_mutations_pending mus el) as (queue & calls & errors).
  destruct (host_mutations_laid_out mus el nonempty) as (box & found & height).
  fold el' in queue, calls, errors, found, height.
  split; [exact queue|].
  assert (pending : frameQueue el' <> []).
  { rewrite queue. destruct mus; [contradiction|].
    cbn. intros empty. now apply app_eq_nil in empty as [_ ?]. }
  destruct (run_callbacks_viewport (frameQueue el') (with_frameQueue [] el') box found pending)
    as (found' & calls' & errors' & same_props & same_queue).
  exists (scrollTo (to_bottom box) box). unfold run_frame.
  repeat split.
  - exact found'.
  - exact height.
  - apply scrollTo_bottom_target.
  - rewrite calls'. cbn [scrollCalls with_frameQueue]. now rewrite calls.
  - exact same_queue.
  - rewrite errors'. exact errors.
Qed.

(** An element that has rendered keeps its shadow root, and no
    exception has escaped from its frame callbacks. *)
Lemma reachable_shadowRoot (el : Element) :
  reachable el -> (exists root, shadowRoot el = Some root) /\ uncaught el = [].
Proof.
  induction 1 as [changed p | changed p el _ [[root attached] quiet]
                  | el _ [[root attached] quiet] | el _ [[root attached] quiet]].
  - unfold first_update. destruct (render_returns p) as [v ->].
    unfold updated. destruct (existsb _ changed); cbn; eauto.
  - unfold update. destruct (render_returns p) as [v ->].
    unfold updated. destruct (existsb _ changed); cbn; eauto.
  - unfold run_frame.
    assert (kept : forall q e, (exists r, shadowRoot e = Some r) /\ uncaught e = [] ->
              (exists r, shadowRoot (fold_left (fun el cb => run_callback cb el) q e) = Some r)
              /\ uncaught (fold_left (fun el cb => run_callback cb el) q e) = []).
    { induction q as [|[] q IHq]; intros e [[r at_r] no_error]; cbn [fold_left]; [eauto|].
      apply IHq. unfold run_callback, run_scroll_callback. rewrite at_r.
      destruct (messages_scroll r); cbn; eauto. }
    apply kept. cbn. eauto.
  - unfold teardown. rewrite attached. cbn. eauto.
Qed.

(** C9: when the scroll callback runs on an element whose viewport is
    not there, it returns without an exception and leaves the element
    as it is; a frame whose callbacks all find no viewport does
    nothing but empty the queue. *)
Theorem scroll_without_viewport_is_noop (el : Element) :
  reachable el ->
  viewport el = None ->
  run_scroll_callback el = Normal el /\
  run_frame el = with_frameQueue [] el.
Proof.
  intros lives missing.
  destruct (reachable_shadowRoot el lives) as [[root attached] _].
  unfold viewport in missing. rewrite attached in missing.
  split.
  - unfold run_scroll_callback. now rewrite attached, missing.
  - unfold run_frame.
    assert (idle : forall cb, run_callback cb (with_frameQueue [] el) = with_frameQueue [] el).
    { intros []. unfold run_callback, run_scroll_callback.
      cbn [shadowRoot with_frameQueue]. now rewrite attached, missing. }
    induction (frameQueue el) as [|cb q IH]; cbn [fold_left]; [reflexivity|].
    now rewrite idle.
Qed.

End WithDeps.

(** C5, as stated, fails: two calls in a row leave two callbacks
    pending, the second call does not replace the first, and the next
    frame calls [scrollTo] twice. *)
Lemma scroll_calls_are_not_coalesced :
  let el := updated ["messages"] (updated ["messages"] Samples.rendered) in
  frameQueue el = [scroll_callback; scroll_callback] /\
  scrollCalls (run_frame el)
    = [{| top := 500; behavior := "smooth" |}; {| top := 500; behavior := "smooth" |}].
Proof. split; reflexivity. Qed.

Lemma scroll_settles_at_bottom_witness :
  let mus := [Append {| role := "assistant"; content := "" |}; UpdateLast "Why";
              UpdateLast "Why did"; Append {| role := "user"; content := "?" |};
              Append {| role := "assistant"; content := "" |}] in
  let el' := @host_mutations Samples.hljs Samples.parser Samples.layout mus Samples.rendered in
  mus <> [] /\
  List.length (frameQueue el') = 5 /\
  exists box,
    viewport (run_frame el') = Some box /\
    scrollHeight box = 400%N /\
    smoothTarget box = Some 200%Z.
Proof.
  split; [discriminate|].
  destruct (@scroll_settles_at_bottom Samples.hljs Samples.parser Samples.layout
              Samples.rendered
              [Append {| role := "assistant"; content := "" |}; UpdateLast "Why";
               UpdateLast "Why did"; Append {| role := "user"; content := "?" |};
               Append {| role := "assistant"; content := "" |}]
              ltac:(discriminate))
    as (queue & box & found & height & target & _).
  split; [now rewrite queue|].
  exists box. split; [exact found|].
  vm_compute in found. injection found as <-. split; reflexivity.
Defined.

Lemma scroll_without_viewport_is_noop_witness :
  let el := teardown (@first_update Samples.hljs Samples.parser Samples.layout
                        ["messages"] Samples.idle (fresh Samples.idle)) in
  viewport el = None /\
  frameQueue el = [scroll_callback; scroll_callback] /\
  run_frame el = with_frameQueue [] el.
Proof.
  split; [reflexivity|]. split; [reflexivity|].
  apply (@scroll_without_viewport_is_noop Samples.hljs Samples.parser Samples.layout).
  - apply reach_teardown, reach_first.
  - reflexivity.
Defined.

End ScrollController.


(** ** Runs of the composer *)

Module ComposerRuns.

Import Js Deps ChatWindow Platform Observers JsFacts.

Lemma last_reported_app (a b : list CustomEvent) (initial : string) :
  last_reported (a ++ b)%list initial = last_reported b (last_reported a initial).
Proof. unfold last_reported. apply fold_left_app. Qed.

Lemma handleKeyPress_dispatches (e : KeyboardEvent) :
  handleKeyPress e no_effects =
    if submitting (KeyPress e)
    then {| defaultPrevented := true; dispatched := [send_message] |}
    else no_effects.
Proof.
  unfold handleKeyPress. cbn [submitting].
  now destruct (String.eqb (key e) "Enter" && negb (shiftKey e)).
Qed.

(** One event keeps the host's knowledge of the draft up to date. *)
Lemma deliver_reported (u : UserEvent) (c : Composer) (initial : string) :
  draft c = last_reported (heard c) initial ->
  draft (deliver u c) = last_reported (heard (deliver u c)) initial.
Proof.
  intros known. unfold deliver.
  cbn [render_textarea render_button textarea_disabled button_disabled
       onkeypress oninput onclick].
  destruct (isLoading (owner c)); [now destruct u|].
  destruct u as [e|text|].
  - rewrite handleKeyPress_dispatches.
    destruct (submitting (KeyPress e)); cbn [defaultPrevented no_effects].
    + cbn. now rewrite last_reported_app, <- known.
    + destruct (key_text (key e)) as [text|].
      * cbn. now rewrite !last_reported_app.
      * cbn. now rewrite app_nil_r.
  - cbn. now rewrite last_reported_app.
  - cbn. now rewrite last_reported_app, <- known.
Qed.

(** X1: the draft is a controlled input that reports every edit: after
    any sequence of user events on a mounted composer, the text in the
    textarea is the detail of the last [input-change] event the host has
    heard, or the [inputText] it was rendered with when no edit happened. *)
Theorem draft_is_last_reported (p : Props) (us : list UserEvent) :
  draft (deliver_all us (mount p))
    = last_reported (heard (deliver_all us (mount p))) (inputText p).
Proof.
  assert (general : forall c, draft c = last_reported (heard c) (inputText p) ->
            draft (deliver_all us c) = last_reported (heard (deliver_all us c)) (inputText p)).
  { unfold deliver_all. induction us as [|u us IH]; intros c known; cbn [fold_left].
    - exact known.
    - apply IH, deliver_reported, known. }
  apply general. reflexivity.
Qed.

Lemma deliver_owner (u : UserEvent) (c : Composer) : owner (deliver u c) = owner c.
Proof.
  unfold deliver.
  cbn [render_textarea render_button textarea_disabled button_disabled
       onkeypress oninput onclick].
  destruct (isLoading (owner c)); [now destruct u|].
  destruct u as [e|text|]; try reflexivity.
  destruct (defaultPrevented (handleKeyPress e no_effects)); [reflexivity|].
  now destruct (key_text (key e)).
Qed.

Lemma deliver_submits (u : UserEvent) (c : Composer) :
  isLoading (owner c) = false ->
  submits (heard (deliver u c)) = submits (heard c) + (if submitting u then 1 else 0).
Proof.
  intros idle_state. unfold deliver.
  cbn [render_textarea render_button textarea_disabled button_disabled
       onkeypress oninput onclick].
  rewrite idle_state.
  destruct u as [e|text|].
  - rewrite handleKeyPress_dispatches.
    destruct (submitting (KeyPress e)); cbn [defaultPrevented no_effects].
    + unfold hear. cbn [heard dispatched]. rewrite Composer.submits_app. reflexivity.
    + rewrite Composer.hear_nothing.
      destruct (key_text (key e)) as [text|]; [|lia].
      unfold insert_text, hear, handleInput, dispatchEvent.
      cbn [heard dispatched no_effects app]. rewrite Composer.submits_app. cbn. lia.
  - unfold insert_text, hear, handleInput, dispatchEvent.
    cbn [heard dispatched no_effects app]. rewrite Composer.submits_app. cbn. lia.
  - unfold hear, handleClick, dispatchEvent.
    cbn [heard dispatched no_effects app]. rewrite Composer.submits_app. reflexivity.
Qed.

(** X2: in the idle composer every submitting user event, and no other,
    makes the host hear one [send-message]: after any sequence of user
    events the number of submit events heard has grown by the number of
    Enter-without-Shift key presses and button clicks in it, and the
    element's properties are what they were. *)
Theorem idle_composer_counts_submissions (c : Composer) (us : list UserEvent) :
  isLoading (owner c) = false ->
  submits (heard (deliver_all us c))
    = submits (heard c) + List.length (filter submitting us) /\
  owner (deliver_all us c) = owner c.
Proof.
  unfold deliver_all. revert c.
  induction us as [|u us IH]; intros c idle_state; cbn [fold_left filter].
  - split; [cbn; lia | reflexivity].
  - assert (still_idle : isLoading (owner (deliver u c)) = false)
      by now rewrite deliver_owner.
    destruct (IH (deliver u c) still_idle) as [count same].
    rewrite count, same, deliver_owner, (deliver_submits u c idle_state).
    split; [|reflexivity].
    destruct (submitting u); cbn [List.length]; lia.
Qed.

Lemma idle_composer_counts_submissions_witness :
  let us := [KeyPress {| key := "h"; shiftKey := false |}; KeyPress enter;
             KeyPress shift_enter; Paste "again"; ClickSend] in
  isLoading (owner (mount Samples.idle)) = false /\
  submits (heard (deliver_all us (mount Samples.idle))) = 2.
Proof.
  split; [reflexivity|].
  exact (proj1 (idle_composer_counts_submissions (mount Samples.idle)
                  [KeyPress {| key := "h"; shiftKey := false |}; KeyPress enter;
                   KeyPress shift_enter; Paste "again"; ClickSend] eq_refl)).
Defined.

End ComposerRuns.


(** ** The rendered rows *)

Module Rows.

Import Js Deps ChatWindow Platform FormatterFacts.

Section WithDeps.

Context {hljs : HighlightJs} {parser : Parser}.

(** [render_messages] keeps the order of the messages: the block at an
    offset is made from the message at that offset. *)
Lemma render_messages_rows (p : Props) (ms : list Message) :
  forall first bs,
    render_messages p first ms = Normal bs ->
    forall i m, nth_error ms i = Some m ->
      exists b,
        nth_error bs i = Some b /\
        render_message p m (first + i) = Normal b.
Proof.
  induction ms as [|m0 ms IH]; intros first bs E i m at_i.
  - destruct i; discriminate.
  - cbn [render_messages] in E.
    destruct (render_message p m0 first) as [b0|] eqn:E0; [|discriminate].
    destruct (render_messages p (S first) ms) as [rest|] eqn:Erest; [|discriminate].
    cbn [bind] in E. injection E as <-.
    destruct i as [|i]; cbn [nth_error] in *.
    + injection at_i as <-. exists b0. now rewrite Nat.add_0_r.
    + destruct (IH (S first) rest Erest i m at_i) as (b & at_b & made).
      exists b. split; [exact at_b|]. now rewrite Nat.add_succ_r.
Qed.

(** X3: [render] makes the row at each position from the message at that
    position: its body is what [formatContent] returns for the message,
    and it is right-aligned and blue when the role is user, left-aligned
    and white for every other role. *)
Theorem render_row_of_message (p : Props) (i : nat) (m : Message) :
  nth_error (messages p) i = Some m ->
  exists v b,
    render p = Normal v /\
    nth_error (blocks v) i = Some b /\
    formatContent m = Normal (body b) /\
    justify b = (if String.eqb (role m) "user" then "justify-end" else "justify-start") /\
    colours b = (if String.eqb (role m) "user"
                 then "bg-blue-500 text-white" else "bg-white text-gray-800").
Proof.
  intros at_i.
  destruct (MessageList.render_messages_blocks p (messages p) 0) as (bs & E & _).
  destruct (render_messages_rows p (messages p) 0 bs E i m at_i) as (b & at_b & made).
  exists {| blocks := bs; textarea := render_textarea p; button := render_button p |}, b.
  split; [unfold render; now rewrite E|]. split; [exact at_b|].
  unfold render_message in made.
  destruct (formatContent m) as [c|]; [|discriminate].
  cbn [bind] in made. injection made as <-. cbn. auto.
Qed.

(** X4: role matching is exact.  A message whose role is anything but the
    string [assistant] is shown as literal text and never carries the
    typing indicator, whatever [waitingForFirstToken] says and wherever
    the message stands in the list. *)
Theorem other_roles_get_text_and_no_indicator (p : Props) (i : nat) (m : Message) :
  nth_error (messages p) i = Some m ->
  role m <> "assistant" ->
  exists v b,
    render p = Normal v /\
    nth_error (blocks v) i = Some b /\
    body b = Text (content m) /\
    typing_indicator b = false.
Proof.
  intros at_i other.
  destruct (MessageList.render_messages_blocks p (messages p) 0) as (bs & E & _).
  destruct (render_messages_rows p (messages p) 0 bs E i m at_i) as (b & at_b & made).
  exists {| blocks := bs; textarea := render_textarea p; button := render_button p |}, b.
  split; [unfold render; now rewrite E|]. split; [exact at_b|].
  apply String.eqb_neq in other.
  unfold render_message, formatContent in made. rewrite other in made.
  cbn [bind] in made. injection made as <-. cbn. auto.
Qed.

(** X5: the highlight option never invents markup: when it returns a
    non-empty string, the language tag is non-empty, highlight.js knows
    the language, and the string is the markup [hljs.highlight] returned
    for the block. *)
Theorem md_highlight_markup_is_hljs (str lang h : string) :
  md_highlight str lang = Normal h ->
  h <> "" ->
  truthy lang = true /\
  (exists definition, getLanguage lang = Some definition) /\
  exists r, hljs_highlight str lang = Normal r /\ Deps.value r = h.
Proof.
  unfold md_highlight. intros returned nonempty.
  destruct (truthy lang) eqn:tagged; cbn [andb] in returned.
  2:{ injection returned as <-. contradiction. }
  destruct (getLanguage lang) as [definition|] eqn:known; cbn [defined] in returned.
  2:{ injection returned as <-. contradiction. }
  destruct (hljs_highlight str lang) as [r|error] eqn:highlighted;
    cbn [bind try_return] in returned.
  2:{ injection returned as <-. contradiction. }
  injection returned as <-. split; [reflexivity|]. split; eauto.
Qed.

End WithDeps.

Lemma render_row_of_message_witness :
  let m := {| role := "assistant"; content := "" |} in
  nth_error (messages Samples.waiting) 1 = Some m /\
  exists v b,
    @render Samples.hljs Samples.parser Samples.waiting = Normal v /\
    nth_error (blocks v) 1 = Some b /\
    justify b = "justify-start".
Proof.
  split; [reflexivity|].
  destruct (@render_row_of_message Samples.hljs Samples.parser Samples.waiting 1
              {| role := "assistant"; content := "" |} eq_refl)
    as (v & b & E & at_b & _ & aligned & _).
  now exists v, b.
Defined.

Lemma other_roles_get_text_and_no_indicator_witness :
  let p := {| messages := [{| role := "user"; content := "hi" |};
                           {| role := "Assistant"; content := "**bold**" |}];
              inputText := ""; isLoading := true; waitingForFirstToken := true |} in
  nth_error (messages p) 1 = Some {| role := "Assistant"; content := "**bold**" |} /\
  exists v b,
    @render Samples.hljs Samples.parser p = Normal v /\
    nth_error (blocks v) 1 = Some b /\
    body b = Text "**bold**" /\
    typing_indicator b = false.
Proof.
  split; [reflexivity|].
  apply (@other_roles_get_text_and_no_indicator Samples.hljs Samples.parser
           {| messages := [{| role := "user"; content := "hi" |};
                           {| role := "Assistant"; content := "**bold**" |}];
              inputText := ""; isLoading := true; waitingForFirstToken := true |}
           1 {| role := "Assistant"; content := "**bold**" |} eq_refl).
  discriminate.
Defined.

Lemma md_highlight_markup_is_hljs_witness :
  @md_highlight Samples.hljs "x" "js" = Normal "<span class=hljs-title>x</span>" /\
  @getLanguage Samples.hljs "js" = Some tt.
Proof.
  split; [reflexivity|].
  destruct (@md_highlight_markup_is_hljs Samples.hljs "x" "js"
              "<span class=hljs-title>x</span>" eq_refl ltac:(discriminate))
    as (_ & (definition & known) & _).
  destruct definition. exact known.
Defined.

End Rows.


(** ** Runs of the scroll controller *)

Module ScrollRuns.

Import Js Deps ChatWindow Platform Observers FormatterFacts.

Lemma run_callback_frameQueue (cb : FrameCallback) (el : Element) :
  frameQueue (run_callback cb el) = frameQueue el.
Proof.
  destruct cb. unfold run_callback, run_scroll_callback.
  destruct (shadowRoot el) as [[[box|]]|]; reflexivity.
Qed.

Lemma run_callbacks_frameQueue (q : list FrameCallback) :
  forall el, frameQueue (fold_left (fun el cb => run_callback cb el) q el) = frameQueue el.
Proof.
  induction q as [|cb q IH]; intros el; cbn [fold_left]; [reflexivity|].
  now rewrite IH, run_callback_frameQueue.
Qed.

Lemma run_frame_nothing_pending (el : Element) : frameQueue el = [] -> run_frame el = el.
Proof.
  destruct el as [p root q calls errors]. cbn. intros ->. reflexivity.
Qed.

(** X6: a frame runs each queued callback once and queues nothing: after
    it the queue is empty, so a second frame with no call of
    [scrollToBottom] in between changes nothing. *)
Theorem run_frame_empties_queue (el : Element) :
  frameQueue (run_frame el) = [] /\
  run_frame (run_frame el) = run_frame el.
Proof.
  assert (emptied : frameQueue (run_frame el) = []).
  { unfold run_frame. now rewrite run_callbacks_frameQueue. }
  split; [exact emptied | now apply run_frame_nothing_pending].
Qed.

(** X7: on an element that has no shadow root the scroll callback throws:
    the frame reports one TypeError per queued callback, calls [scrollTo]
    not once, and still runs every callback. *)
Theorem scroll_before_render_throws (el : Element) :
  shadowRoot el = None ->
  uncaught (run_frame el)
    = (uncaught el ++ repeat "TypeError" (List.length (frameQueue el)))%list /\
  scrollCalls (run_frame el) = scrollCalls el /\
  frameQueue (run_frame el) = [].
Proof.
  intros detached.
  assert (general : forall q e, shadowRoot e = None ->
            uncaught (fold_left (fun el cb => run_callback cb el) q e) = (uncaught e ++ repeat "TypeError" (List.length q))%list /\
            scrollCalls (fold_left (fun el cb => run_callback cb el) q e) = scrollCalls e).
  { induction q as [|[] q IH]; intros e none; cbn [fold_left List.length repeat].
    - now rewrite app_nil_r.
    - assert (thrown : run_callback scroll_callback e = report "TypeError" e).
      { unfold run_callback, run_scroll_callback. now rewrite none. }
      rewrite thrown. destruct (IH (report "TypeError" e) none) as [errors calls].
      rewrite errors, calls. cbn. now rewrite <- app_assoc. }
  destruct (general (frameQueue el) (with_frameQueue [] el) detached) as [errors calls].
  unfold run_frame. rewrite errors, calls, run_callbacks_frameQueue. auto.
Qed.

Lemma scroll_before_render_throws_witness :
  let el := scrollToBottom (scrollToBottom (fresh Samples.idle)) in
  shadowRoot el = None /\
  uncaught (run_frame el) = ["TypeError"; "TypeError"] /\
  scrollCalls (run_frame el) = [].
Proof.
  split; [reflexivity|].
  destruct (scroll_before_render_throws
              (scrollToBottom (scrollToBottom (fresh Samples.idle))) eq_refl)
    as (errors & calls & _).
  split; [exact errors | exact calls].
Defined.

Section WithDeps.

Context {hljs : HighlightJs} {parser : Parser} {layout : Layout}.

Lemma update_unfold (changed : list string) (p : Props) (el : Element) :
  update changed p el = updated changed (commit (with_props p el)).
Proof.
  unfold update. now destruct (ScrollController.render_returns p) as [v ->].
Qed.

Lemma first_update_unfold (changed : list string) (p : Props) (el : Element) :
  first_update changed p el = updated changed (firstUpdated (commit (with_props p el))).
Proof.
  unfold first_update. now destruct (ScrollController.render_returns p) as [v ->].
Qed.

(** X8: updates that do not change [messages] never schedule a scroll:
    after any sequence of them the queue of frame callbacks, the calls of
    [scrollTo] and the reported exceptions are what they were, and when
    nothing was pending the next frame does nothing. *)
Theorem updates_without_messages_never_scroll (steps : list Step) (el : Element) :
  Forall (fun step => changes_messages step = false) steps ->
  frameQueue (updates steps el) = frameQueue el /\
  scrollCalls (updates steps el) = scrollCalls el /\
  uncaught (updates steps el) = uncaught el /\
  (frameQueue el = [] -> run_frame (updates steps el) = updates steps el).
Proof.
  intros quiet.
  assert (kept : frameQueue (updates steps el) = frameQueue el /\
                 scrollCalls (updates steps el) = scrollCalls el /\
                 uncaught (updates steps el) = uncaught el).
  { unfold updates. revert el.
    induction quiet as [|[changed p] steps unchanged _ IH]; intros el; cbn [fold_left].
    - auto.
    - destruct (IH (update (fst (changed, p)) (snd (changed, p)) el)) as (queue & calls & errors).
      rewrite queue, calls, errors, update_unfold.
      unfold changes_messages in unchanged. unfold updated. rewrite unchanged.
      cbn. auto. }
  destruct kept as (queue & calls & errors).
  repeat split; trivial.
  intros nothing. apply run_frame_nothing_pending. now rewrite queue.
Qed.


Lemma lay_out_again (ms ms' : list Message) (before : option Scrollable) :
  lay_out ms (Some (lay_out ms' before)) = lay_out ms before.
Proof. destruct before; reflexivity. Qed.

Lemma host_mutations_viewport (mus : list Mutation) :
  forall el, mus <> [] ->
    viewport (host_mutations mus el)
      = Some (lay_out (messages (props (host_mutations mus el))) (viewport el)).
Proof.
  unfold host_mutations.
  induction mus as [|mu mus IH]; intros el nonempty; [contradiction|].
  cbn [fold_left].
  assert (one : viewport (host_mutation mu el)
                = Some (lay_out (messages (props (host_mutation mu el))) (viewport el))).
  { rewrite ScrollController.host_mutation_unfold. cbn.
    unfold viewport. cbn [shadowRoot with_props].
    reflexivity. }
  destruct mus as [|mu' mus]; [exact one|].
  rewrite (IH (host_mutation mu el)) by discriminate.
  now rewrite one, lay_out_again.
Qed.

(** X10: what the frame after a run of mutations leaves in the viewport
    depends on the final message list only, not on how many mutations led
    to it or what the list was in between: it is the viewport as laid out
    for the final list, aimed at its bottom. *)
Theorem viewport_after_mutations (el : Element) (mus : list Mutation) :
  mus <> [] ->
  let settled := lay_out (messages (props (host_mutations mus el))) (viewport el) in
  viewport (run_frame (host_mutations mus el)) = Some (scrollTo (to_bottom settled) settled).
Proof.
  intros nonempty settled.
  pose proof (host_mutations_viewport mus el nonempty) as found.
  fold settled in found.
  destruct (ScrollController.host_mutations_pending mus el) as (queue & _).
  assert (pending : frameQueue (host_mutations mus el) <> []).
  { rewrite queue. destruct mus; [contradiction|].
    cbn. intros empty. now apply app_eq_nil in empty as [_ ?]. }
  destruct (ScrollController.run_callbacks_viewport
              (frameQueue (host_mutations mus el))
              (with_frameQueue [] (host_mutations mus el)) settled found pending)
    as (found' & _).
  exact found'.
Qed.

Lemma run_callbacks_smooth (q : list FrameCallback) :
  forall el,
    Forall (fun o => behavior o = "smooth" /\ (0 <= top o)%Z) (scrollCalls el) ->
    Forall (fun o => behavior o = "smooth" /\ (0 <= top o)%Z) (scrollCalls (fold_left (fun el cb => run_callback cb el) q el)).
Proof.
  induction q as [|[] q IH]; intros el smooth; cbn [fold_left]; [exact smooth|].
  apply IH. unfold run_callback, run_scroll_callback.
  destruct (shadowRoot el) as [[[box|]]|]; cbn; trivial.
  apply Forall_app. split; [exact smooth|].
  constructor; [|constructor]. cbn. split; [reflexivity | lia].
Qed.

(** X11: in every state the element reaches, no frame callback has
    thrown, and every call of [scrollTo] the component has made asked for
    a smooth scroll to a non-negative offset. *)
Theorem reachable_scrolls_smoothly (el : Element) :
  reachable el ->
  uncaught el = [] /\
  Forall (fun o => behavior o = "smooth" /\ (0 <= top o)%Z) (scrollCalls el).
Proof.
  intros lives. split; [apply (ScrollController.reachable_shadowRoot el lives)|].
  induction lives as [changed p | changed p el _ IH | el _ IH | el _ IH].
  - rewrite first_update_unfold. unfold updated.
    destruct (existsb _ changed); constructor.
  - rewrite update_unfold. unfold updated.
    destruct (existsb _ changed); exact IH.
  - unfold run_frame. apply run_callbacks_smooth. exact IH.
  - exact IH.
Qed.

End WithDeps.

Lemma updates_without_messages_never_scroll_witness :
  let steps := [(["inputText"], Samples.idle); (["isLoading"; "waitingForFirstToken"], Samples.waiting)] in
  Forall (fun step => changes_messages step = false) steps /\
  frameQueue (@updates Samples.hljs Samples.parser Samples.layout steps Samples.rendered) = [].
Proof.
  assert (quiet : Forall (fun step => changes_messages step = false)
                    [(["inputText"], Samples.idle);
                     (["isLoading"; "waitingForFirstToken"], Samples.waiting)])
    by (repeat constructor).
  split; [exact quiet|].
  exact (proj1 (@updates_without_messages_never_scroll Samples.hljs Samples.parser Samples.layout
                  [(["inputText"], Samples.idle);
                   (["isLoading"; "waitingForFirstToken"], Samples.waiting)]
                  Samples.rendered quiet)).
Defined.

Lemma viewport_after_mutations_witness :
  let mus := [Append {| role := "assistant"; content := "" |}; UpdateLast "a";
              Append {| role := "user"; content := "more" |};
              Append {| role := "assistant"; content := "" |}; UpdateLast "a joke"] in
  mus <> [] /\
  viewport (run_frame (@host_mutations Samples.hljs Samples.parser Samples.layout mus Samples.rendered))
    = Some {| scrollHeight := 400; clientHeight := 200; scrollTop := 0;
              smoothTarget := Some 200%Z |}.
Proof.
  split; [discriminate|].
  exact (@viewport_after_mutations Samples.hljs Samples.parser Samples.layout Samples.rendered
           [Append {| role := "assistant"; content := "" |}; UpdateLast "a";
            Append {| role := "user"; content := "more" |};
            Append {| role := "assistant"; content := "" |}; UpdateLast "a joke"]
           ltac:(discriminate)).
Defined.

Lemma reachable_scrolls_smoothly_witness :
  let el := run_frame (@first_update Samples.hljs Samples.parser Samples.layout
                         ["messages"] Samples.waiting (fresh Samples.waiting)) in
  uncaught el = [] /\ List.length (scrollCalls el) = 2.
Proof.
  split; [|reflexivity].
  apply (@reachable_scrolls_smoothly Samples.hljs Samples.parser Samples.layout).
  apply reach_frame, reach_first.
Defined.

End ScrollRuns.
